(** * BigQuery HTTP API wrapper ([gcp/bigquery/_api.py])

    A shallow embedding of the [Api] class: every method formats a URL
    from a path template, assembles a JSON body or a query-argument
    mapping, and hands the request to the external helper
    [_util.Http.request]. *)

From Stdlib Require Import ZArith String Ascii List Bool.
From stdpp Require Import base option gmap strings list fin_maps.

Set Warnings "-register-all".
Local Open Scope Z_scope.

(** ** Python values *)

(** The values that flow through the wrapper: [None], booleans, integers,
    strings, lists and string-keyed dictionaries (parsed JSON). *)
Inductive value : Type :=
| VNone
| VBool (b : bool)
| VInt (n : Z)
| VStr (s : string)
| VList (l : list value)
| VDict (d : gmap string value).

(** Exceptions the wrapper itself can meet, and the ones the transport
    raises (carried through unchanged). *)
Inductive exn : Type :=
| TypeError (msg : string)
| KeyError (key : string)
| ValueError (msg : string)
| RequestException (status : Z) (content : string).

Inductive result (A : Type) : Type :=
| Ok (a : A)
| Raise (e : exn).
Arguments Ok {A} a.
Arguments Raise {A} e.

Definition result_bind {A B} (r : result A) (k : A -> result B) : result B :=
  match r with
  | Ok a => k a
  | Raise e => Raise e
  end.

(** Python truth value testing. *)
Definition truthy (v : value) : bool :=
  match v with
  | VNone => false
  | VBool b => b
  | VInt n => negb (n =? 0)%Z
  | VStr s => negb (String.eqb s "")
  | VList l => match l with [] => false | _ => true end
  | VDict d => negb (bool_decide (d = ∅))
  end.

(** [x and y] evaluates to [x] when [x] is false, else to [y]. *)
Definition py_and (x y : value) : value :=
  if truthy x then y else x.

(** A parameter documented as "None or a string". *)
Definition opt_str (o : option string) : value :=
  match o with
  | None => VNone
  | Some s => VStr s
  end.

(** Such a parameter is supplied when it is a string and not the empty one. *)
Definition supplied (o : option string) : Prop :=
  exists s, o = Some s /\ s <> "".

Definition opt_int (o : option Z) : value :=
  match o with
  | None => VNone
  | Some n => VInt n
  end.

(** ** String formatting: [template % args]

    Only the [%s] conversion occurs in the path templates; the arguments
    are the elements of the tuple on the right of [%] (a lone string
    counts as a one-element tuple). Too few or too many arguments raise
    [TypeError], as in Python. *)
Fixpoint percent_format (template : string) (args : list string) : result string :=
  match template with
  | EmptyString =>
      match args with
      | [] => Ok EmptyString
      | _ :: _ => Raise (TypeError "not all arguments converted during string formatting")
      end
  | String c rest =>
      if Ascii.eqb c "%"%char then
        match rest with
        | EmptyString => Raise (ValueError "incomplete format")
        | String k rest' =>
            if Ascii.eqb k "s"%char then
              match args with
              | [] => Raise (TypeError "not enough arguments for format string")
              | a :: args' =>
                  result_bind (percent_format rest' args') (fun r => Ok (a +:+ r))
              end
            else Raise (ValueError "unsupported format character")
        end
      else result_bind (percent_format rest args) (fun r => Ok (String c r))
  end.

(** ** Dictionary and membership operations *)

(** [container[key]] for a string key. *)
Definition getitem (container : value) (key : string) : result value :=
  match container with
  | VDict d =>
      match d !! key with
      | Some v => Ok v
      | None => Raise (KeyError key)
      end
  | VList _ => Raise (TypeError "list indices must be integers, not str")
  | VStr _ => Raise (TypeError "string indices must be integers, not str")
  | _ => Raise (TypeError "object has no attribute '__getitem__'")
  end.

Fixpoint is_substring (needle hay : string) : bool :=
  String.prefix needle hay ||
  match hay with
  | EmptyString => false
  | String _ hay' => is_substring needle hay'
  end.

(** [key in container] for a string key: key membership on a dictionary,
    element membership on a list, substring test on a string. *)
Definition contains (key : string) (container : value) : result bool :=
  match container with
  | VDict d => Ok (bool_decide (is_Some (d !! key)))
  | VList l =>
      Ok (existsb (fun v => match v with VStr s => String.eqb s key | _ => false end) l)
  | VStr s => Ok (is_substring key s)
  | _ => Raise (TypeError "argument is not iterable")
  end.

(** [target[key] = v] where [target] is the dictionary reached from
    [data] through [path]. The source holds [target] in a local variable
    that aliases the nested dictionary, so the write is seen through
    [data]; here the write is made at the path. *)
Fixpoint setitem_at (path : list string) (key : string) (v : value)
    (data : value) : result value :=
  match path with
  | [] =>
      match data with
      | VDict d => Ok (VDict (<[key := v]> d))
      | _ => Raise (TypeError "object does not support item assignment")
      end
  | k :: path' =>
      match data with
      | VDict d =>
          match d !! k with
          | Some inner =>
              result_bind (setitem_at path' key v inner)
                (fun inner' => Ok (VDict (<[k := inner']> d)))
          | None => Raise (KeyError k)
          end
      | _ => Raise (TypeError "object has no attribute '__getitem__'")
      end
  end.

(** Reading a nested entry, [data[k1][k2]...]; [None] when some key on
    the way is missing. *)
Fixpoint lookup_path (path : list string) (data : value) : option value :=
  match path with
  | [] => Some data
  | k :: path' =>
      match data with
      | VDict d =>
          match d !! k with
          | Some inner => lookup_path path' inner
          | None => None
          end
      | _ => None
      end
  end.

(** ** The client and its transport *)

Section Client.

(** The credential handle is opaque to the wrapper. *)
Context {credentials : Type}.

(** The keyword arguments of one call of [_util.Http.request]; a keyword
    the call site leaves out is [None]. *)
Record request : Type := Request {
  url : string;
  args : option (gmap string value);
  data : option value;
  method : option string;
  request_credentials : option credentials
}.

(** The external helper: it answers a request with a parsed response or
    raises, and may change the outside world while doing so. *)
Context {world : Type}.
Variable Http_transport : request -> world -> result value * world.

(** The attributes of an [Api] instance. *)
Record Api : Type := {
  _credentials : credentials;
  _project_id : string
}.

(** What a method runs in: the instance it is called on, the outside
    world, and the requests handed to the transport so far. *)
Record state : Type := State {
  self : Api;
  net : world;
  sent : list request
}.

Definition M (A : Type) : Type := state -> result A * state.

Definition ret {A} (a : A) : M A := fun st => (Ok a, st).

Definition raise {A} (e : exn) : M A := fun st => (Raise e, st).

Definition bind {A B} (m : M A) (k : A -> M B) : M B :=
  fun st =>
    match m st with
    | (Ok a, st') => k a st'
    | (Raise e, st') => (Raise e, st')
    end.

Definition lift {A} (r : result A) : M A := fun st => (r, st).

Notation "'do' x <- m ; k" := (bind m (fun x => k))
  (at level 10, x name, m at level 100, k at level 200).

(** [self._project_id] and [self._credentials]. *)
Definition self_project_id : M string := fun st => (Ok (_project_id (self st)), st).
Definition self_credentials : M credentials := fun st => (Ok (_credentials (self st)), st).

(** [_util.Http.request(url, args=..., data=..., method=..., credentials=...)]. *)
Definition Http_request (url : string) (args : option (gmap string value))
    (data : option value) (method : option string)
    (creds : option credentials) : M value :=
  fun st =>
    let req := Request url args data method creds in
    let '(r, w) := Http_transport req (net st) in
    (r, State (self st) w (sent st ++ [req])).

(** *** Class constants *)

Definition _ENDPOINT : string := "https://www.googleapis.com/bigquery/v2".
Definition _JOBS_PATH : string := "/projects/%s/jobs".
Definition _QUERY_PATH : string := "/projects/%s/queries".
Definition _QUERY_RESULT_PATH : string := "/projects/%s/queries/%s".
Definition _DATASETS_PATH : string := "/projects/%s/datasets/%s".
Definition _TABLES_PATH : string := "/projects/%s/datasets/%s/tables/%s".

Definition _DEFAULT_PAGE_SIZE : Z := 10000.
Definition _DEFAULT_TIMEOUT : Z := 60000.

(** *** Methods *)

Definition __init__ (creds : credentials) (project_id : string) : Api :=
  {| _credentials := creds; _project_id := project_id |}.

Definition project_id : M value :=
  do p <- self_project_id;
  ret (VStr p).

Definition jobs_insert_query (sql : string) (dataset_id table_id : option string)
    (append overwrite dry_run use_cache : bool) : M value :=
  do p <- self_project_id;
  do path <- lift (percent_format _JOBS_PATH [p]);
  let url := _ENDPOINT +:+ path in
  let data := VDict {[
    "kind" := VStr "bigquery#job";
    "configuration" := VDict {[
      "query" := VDict {[
        "query" := VStr sql;
        "useQueryCache" := VBool use_cache ]};
      "dryRun" := VBool dry_run;
      "priority" := VStr "INTERACTIVE" ]} ]} in
  do data <-
    (if truthy (py_and (opt_str dataset_id) (opt_str table_id)) then
       let query_config := ["configuration"; "query"] in
       do p <- self_project_id;
       do data <- lift (setitem_at query_config "destinationTable"
                          (VDict {[
                             "projectId" := VStr p;
                             "datasetId" := opt_str dataset_id;
                             "tableId" := opt_str table_id ]}) data);
       if append then
         lift (setitem_at query_config "writeDisposition" (VStr "WRITE_APPEND") data)
       else if overwrite then
         lift (setitem_at query_config "writeDisposition" (VStr "WRITE_TRUNCATE") data)
       else ret data
     else ret data);
  do c <- self_credentials;
  Http_request url None (Some data) None (Some c).

Definition jobs_query (sql : string) (page_size : Z) (timeout : option Z)
    (dry_run use_cache : bool) : M value :=
  let page_size := if (page_size =? 0)%Z then _DEFAULT_PAGE_SIZE else page_size in
  let timeout :=
    match timeout with
    | None => Some _DEFAULT_TIMEOUT
    | Some _ => timeout
    end in
  do p <- self_project_id;
  do path <- lift (percent_format _QUERY_PATH [p]);
  let url := _ENDPOINT +:+ path in
  let data := VDict {[
    "kind" := VStr "bigquery#queryRequest";
    "query" := VStr sql;
    "maxResults" := VInt page_size;
    "timeoutMs" := opt_int timeout;
    "dryRun" := VBool dry_run;
    "useQueryCache" := VBool use_cache ]} in
  do c <- self_credentials;
  Http_request url None (Some data) None (Some c).

Definition jobs_query_results (job_id : string) (page_size : Z)
    (timeout : option Z) (start_index : Z) : M value :=
  let page_size := if (page_size =? 0)%Z then _DEFAULT_PAGE_SIZE else page_size in
  let timeout :=
    match timeout with
    | None => Some _DEFAULT_TIMEOUT
    | Some _ => timeout
    end in
  let args : gmap string value := {[
    "maxResults" := VInt page_size;
    "timeoutMs" := opt_int timeout;
    "startIndex" := VInt start_index ]} in
  do p <- self_project_id;
  do path <- lift (percent_format _QUERY_RESULT_PATH [p; job_id]);
  let url := _ENDPOINT +:+ path in
  do c <- self_credentials;
  Http_request url (Some args) None None (Some c).

(** The tail shared by [datasets_insert] and [tables_insert]:
    [if 'selfLink' in response: return response['selfLink']] and
    [return None] otherwise. *)
Definition self_link_or_None (response : value) : M value :=
  do found <- lift (contains "selfLink" response);
  if (found : bool) then lift (getitem response "selfLink")
  else ret VNone.

Definition datasets_insert (dataset_id : string)
    (friendly_name description : option string) : M value :=
  do p <- self_project_id;
  do path <- lift (percent_format _DATASETS_PATH [p; ""]);
  let url := _ENDPOINT +:+ path in
  do p <- self_project_id;
  let data : gmap string value := {[
    "kind" := VStr "bigquery#dataset";
    "datasetReference" := VDict {[
      "projectId" := VStr p;
      "datasetId" := VStr dataset_id ]} ]} in
  let data :=
    if truthy (opt_str friendly_name)
    then <["friendlyName" := opt_str friendly_name]> data else data in
  let data :=
    if truthy (opt_str description)
    then <["description" := opt_str description]> data else data in
  do c <- self_credentials;
  do response <- Http_request url None (Some (VDict data)) None (Some c);
  self_link_or_None response.

(** The local [args] of [datasets_delete]. *)
Definition datasets_delete_args (delete_contents : bool) : gmap string value :=
  let args : gmap string value := ∅ in
  if delete_contents then <["deleteContents" := VBool true]> args else args.

Definition datasets_delete (dataset_id : string) (delete_contents : bool) : M value :=
  do p <- self_project_id;
  do path <- lift (percent_format _DATASETS_PATH [p; dataset_id]);
  let url := _ENDPOINT +:+ path in
  let args := datasets_delete_args delete_contents in
  do c <- self_credentials;
  Http_request url None None (Some "DELETE") (Some c).

Definition datasets_get (dataset_id : string) : M value :=
  do p <- self_project_id;
  do path <- lift (percent_format _DATASETS_PATH [p; dataset_id]);
  let url := _ENDPOINT +:+ path in
  do c <- self_credentials;
  Http_request url None None None (Some c).

(** The paging arguments of the two list operations. *)
Definition list_args (max_results : Z) (page_token : option string) : gmap string value :=
  let args : gmap string value := ∅ in
  let args := if negb (max_results =? 0)%Z then <["maxResults" := VInt max_results]> args else args in
  match page_token with
  | Some token => <["pageToken" := VStr token]> args
  | None => args
  end.

Definition datasets_list (max_results : Z) (page_token : option string) : M value :=
  do p <- self_project_id;
  do path <- lift (percent_format _DATASETS_PATH [p; ""]);
  let url := _ENDPOINT +:+ path in
  let args := list_args max_results page_token in
  do c <- self_credentials;
  Http_request url (Some args) None None (Some c).

Definition tables_get (name_parts : list string) : M value :=
  do path <- lift (percent_format _TABLES_PATH name_parts);
  let url := _ENDPOINT +:+ path in
  do c <- self_credentials;
  Http_request url None None None (Some c).

Definition tables_list (dataset_id : string) (max_results : Z)
    (page_token : option string) : M value :=
  do p <- self_project_id;
  do path <- lift (percent_format _TABLES_PATH [p; dataset_id; ""]);
  let url := _ENDPOINT +:+ path in
  let args := list_args max_results page_token in
  do c <- self_credentials;
  Http_request url (Some args) None None (Some c).

Definition tables_insert (dataset_id table_id : string) (schema : value)
    (friendly_name description : option string) : M value :=
  do p <- self_project_id;
  do path <- lift (percent_format _TABLES_PATH [p; dataset_id; ""]);
  let url := _ENDPOINT +:+ path in
  do p <- self_project_id;
  let data : gmap string value := {[
    "kind" := VStr "bigquery#table";
    "tableReference" := VDict {[
      "projectId" := VStr p;
      "datasetId" := VStr dataset_id;
      "tableId" := VStr table_id ]};
    "schema" := VDict {[ "fields" := schema ]} ]} in
  let data :=
    if truthy (opt_str friendly_name)
    then <["friendlyName" := opt_str friendly_name]> data else data in
  let data :=
    if truthy (opt_str description)
    then <["description" := opt_str description]> data else data in
  do c <- self_credentials;
  do response <- Http_request url None (Some (VDict data)) None (Some c);
  self_link_or_None response.

Definition tables_insertAll (dataset_id table_id : string) (rows : value) : M value :=
  do p <- self_project_id;
  do path <- lift (percent_format _TABLES_PATH [p; dataset_id; table_id]);
  let url := (_ENDPOINT +:+ path) +:+ "/insertAll" in
  let data := VDict {[
    "kind" := VStr "bigquery#tableDataInsertAllRequest";
    "rows" := rows ]} in
  do c <- self_credentials;
  Http_request url None (Some data) None (Some c).

Definition table_delete (dataset_id table_id : string) : M value :=
  do p <- self_project_id;
  do path <- lift (percent_format _TABLES_PATH [p; dataset_id; table_id]);
  let url := _ENDPOINT +:+ path in
  do c <- self_credentials;
  Http_request url None None (Some "DELETE") (Some c).

(** *** Sequences of method calls on one instance *)

Inductive call : Type :=
| Call_project_id
| Call_jobs_insert_query (sql : string) (dataset_id table_id : option string)
    (append overwrite dry_run use_cache : bool)
| Call_jobs_query (sql : string) (page_size : Z) (timeout : option Z)
    (dry_run use_cache : bool)
| Call_jobs_query_results (job_id : string) (page_size : Z) (timeout : option Z)
    (start_index : Z)
| Call_datasets_insert (dataset_id : string) (friendly_name description : option string)
| Call_datasets_delete (dataset_id : string) (delete_contents : bool)
| Call_datasets_get (dataset_id : string)
| Call_datasets_list (max_results : Z) (page_token : option string)
| Call_tables_get (name_parts : list string)
| Call_tables_list (dataset_id : string) (max_results : Z) (page_token : option string)
| Call_tables_insert (dataset_id table_id : string) (schema : value)
    (friendly_name description : option string)
| Call_tables_insertAll (dataset_id table_id : string) (rows : value)
| Call_table_delete (dataset_id table_id : string).

Definition invoke (c : call) : M value :=
  match c with
  | Call_project_id => project_id
  | Call_jobs_insert_query sql d t a o dr uc => jobs_insert_query sql d t a o dr uc
  | Call_jobs_query sql ps tm dr uc => jobs_query sql ps tm dr uc
  | Call_jobs_query_results j ps tm si => jobs_query_results j ps tm si
  | Call_datasets_insert d fn ds => datasets_insert d fn ds
  | Call_datasets_delete d dc => datasets_delete d dc
  | Call_datasets_get d => datasets_get d
  | Call_datasets_list mr pt => datasets_list mr pt
  | Call_tables_get np => tables_get np
  | Call_tables_list d mr pt => tables_list d mr pt
  | Call_tables_insert d t sc fn ds => tables_insert d t sc fn ds
  | Call_tables_insertAll d t rows => tables_insertAll d t rows
  | Call_table_delete d t => table_delete d t
  end.

(** A caller running the calls one after the other on the same instance,
    going on after a call that raised; the outcomes are collected. *)
Fixpoint invoke_all (cs : list call) (st : state) : list (result value) * state :=
  match cs with
  | [] => ([], st)
  | c :: cs' =>
      let '(r, st') := invoke c st in
      let '(rs, st'') := invoke_all cs' st' in
      (r :: rs, st'')
  end.

(** ** Properties *)

(** *** Truth values *)

Lemma truthy_opt_str (o : option string) :
  truthy (opt_str o) = true <-> supplied o.
Proof.
  unfold supplied. destruct o as [s|]; cbn.
  - rewrite negb_true_iff, String.eqb_neq. split.
    + intros H. exists s. auto.
    + intros (s' & [= ->] & H). exact H.
  - split; [discriminate | intros (s' & [=] & _)].
Qed.

Lemma truthy_py_and (x y : value) :
  truthy (py_and x y) = truthy x && truthy y.
Proof. unfold py_and. destruct (truthy x) eqn:E; cbn; auto. Qed.

Lemma both_supplied (d t : option string) :
  truthy (py_and (opt_str d) (opt_str t)) = true <-> supplied d /\ supplied t.
Proof.
  rewrite truthy_py_and, andb_true_iff, !truthy_opt_str. reflexivity.
Qed.

(** *** Path templates *)

Lemma format_JOBS p :
  percent_format _JOBS_PATH [p] = Ok ("/projects/" +:+ p +:+ "/jobs").
Proof. reflexivity. Qed.

Lemma format_QUERY p :
  percent_format _QUERY_PATH [p] = Ok ("/projects/" +:+ p +:+ "/queries").
Proof. reflexivity. Qed.

Lemma append_nil_r (s : string) : s +:+ "" = s.
Proof. induction s as [|c s IH]; [reflexivity |].
  change (String c (s +:+ "") = String c s). now rewrite IH.
Qed.

Lemma format_QUERY_RESULT p j :
  percent_format _QUERY_RESULT_PATH [p; j] =
  Ok ("/projects/" +:+ p +:+ "/queries/" +:+ j).
Proof. cbn. now rewrite append_nil_r. Qed.

Lemma format_DATASETS p d :
  percent_format _DATASETS_PATH [p; d] =
  Ok ("/projects/" +:+ p +:+ "/datasets/" +:+ d).
Proof. cbn. now rewrite append_nil_r. Qed.

Lemma format_TABLES p d t :
  percent_format _TABLES_PATH [p; d; t] =
  Ok ("/projects/" +:+ p +:+ "/datasets/" +:+ d +:+ "/tables/" +:+ t).
Proof. cbn. now rewrite append_nil_r. Qed.

(** *** The transport call *)

Lemma Http_request_sent u a d m c st :
  sent (snd (Http_request u a d m c st)) = sent st ++ [Request u a d m c].
Proof. unfold Http_request. destruct (Http_transport _ _); reflexivity. Qed.

Lemma Http_request_self u a d m c st :
  self (snd (Http_request u a d m c st)) = self st.
Proof. unfold Http_request. destruct (Http_transport _ _); reflexivity. Qed.

Lemma Http_request_fst u a d m c st :
  fst (Http_request u a d m c st) =
  fst (Http_transport (Request u a d m c) (net st)).
Proof. unfold Http_request. destruct (Http_transport _ _); reflexivity. Qed.

(** A computation that reads the instance and hands exactly one request
    to the transport, then finishes without touching the state again. *)
Lemma bind_Http_request_sent {B} u a d m c (k : value -> M B) st :
  (forall v st', snd (k v st') = st') ->
  sent (snd (bind (Http_request u a d m c) k st)) = sent st ++ [Request u a d m c].
Proof.
  intros Hk. unfold bind.
  pose proof (Http_request_sent u a d m c st) as Hs.
  destruct (Http_request u a d m c st) as [[v|e] st']; cbn in *.
  - now rewrite Hk.
  - exact Hs.
Qed.

Lemma self_link_or_None_state response st :
  snd (self_link_or_None response st) = st.
Proof.
  unfold self_link_or_None, bind, lift, ret.
  destruct (contains "selfLink" response) as [[|]|e]; reflexivity.
Qed.

Lemma self_link_or_None_dict d st :
  fst (self_link_or_None (VDict d) st) =
  match d !! "selfLink" with
  | Some link => Ok link
  | None => Ok VNone
  end.
Proof.
  unfold self_link_or_None, bind, lift, ret, contains, getitem.
  destruct (d !! "selfLink") as [v|] eqn:E.
  - rewrite bool_decide_eq_true_2 by eauto. reflexivity.
  - rewrite bool_decide_eq_false_2; [reflexivity | intros [v Hv]; discriminate].
Qed.

(** *** What each method hands to the transport *)

Ltac run_method :=
  unfold bind, self_project_id, self_credentials, lift, ret; cbn beta iota;
  rewrite ?format_JOBS, ?format_QUERY, ?format_QUERY_RESULT,
    ?format_DATASETS, ?format_TABLES, ?append_nil_r; cbn beta iota.

Lemma jobs_query_run sql page_size timeout dry_run use_cache st :
  jobs_query sql page_size timeout dry_run use_cache st =
  Http_request
    (_ENDPOINT +:+ "/projects/" +:+ _project_id (self st) +:+ "/queries")
    None
    (Some (VDict {[
       "kind" := VStr "bigquery#queryRequest";
       "query" := VStr sql;
       "maxResults" :=
         VInt (if (page_size =? 0)%Z then _DEFAULT_PAGE_SIZE else page_size);
       "timeoutMs" :=
         opt_int (match timeout with
                  | None => Some _DEFAULT_TIMEOUT
                  | Some _ => timeout
                  end);
       "dryRun" := VBool dry_run;
       "useQueryCache" := VBool use_cache ]}))
    None (Some (_credentials (self st))) st.
Proof. unfold jobs_query. run_method. reflexivity. Qed.

Lemma setitem_at_query_config key v (q : gmap string value) (knd dr pr : value) :
  setitem_at ["configuration"; "query"] key v
    (VDict {[ "kind" := knd;
              "configuration" := VDict {[
                "query" := VDict q; "dryRun" := dr; "priority" := pr ]} ]}) =
  Ok (VDict {[ "kind" := knd;
               "configuration" := VDict {[
                 "query" := VDict (<[key := v]> q);
                 "dryRun" := dr; "priority" := pr ]} ]}).
Proof.
  cbn [setitem_at].
  rewrite lookup_insert_ne by done. rewrite lookup_singleton_eq.
  rewrite lookup_insert_eq. cbn [result_bind].
  rewrite insert_insert_eq.
  rewrite (insert_insert_ne _ "configuration" "kind") by done.
  rewrite insert_singleton_eq.
  reflexivity.
Qed.

Lemma lookup_path_query_config key (q : gmap string value) (knd dr pr : value) :
  lookup_path ["configuration"; "query"; key]
    (VDict {[ "kind" := knd;
              "configuration" := VDict {[
                "query" := VDict q; "dryRun" := dr; "priority" := pr ]} ]}) =
  q !! key.
Proof.
  cbn [lookup_path].
  rewrite lookup_insert_ne by done. rewrite lookup_singleton_eq.
  rewrite lookup_insert_eq. destruct (q !! key); reflexivity.
Qed.

Lemma jobs_insert_query_run sql d t a o dr uc st :
  jobs_insert_query sql d t a o dr uc st =
  Http_request
    (_ENDPOINT +:+ "/projects/" +:+ _project_id (self st) +:+ "/jobs")
    None
    (Some (VDict {[
       "kind" := VStr "bigquery#job";
       "configuration" := VDict {[
         "query" := VDict
           (let q : gmap string value :=
              {[ "query" := VStr sql; "useQueryCache" := VBool uc ]} in
            if truthy (py_and (opt_str d) (opt_str t)) then
              let q :=
                <["destinationTable" := VDict {[
                    "projectId" := VStr (_project_id (self st));
                    "datasetId" := opt_str d;
                    "tableId" := opt_str t ]}]> q in
              if a then <["writeDisposition" := VStr "WRITE_APPEND"]> q
              else if o then <["writeDisposition" := VStr "WRITE_TRUNCATE"]> q
              else q
            else q);
         "dryRun" := VBool dr;
         "priority" := VStr "INTERACTIVE" ]} ]}))
    None (Some (_credentials (self st))) st.
Proof.
  unfold jobs_insert_query. run_method.
  destruct (truthy (py_and (opt_str d) (opt_str t))); [|reflexivity].
  rewrite setitem_at_query_config.
  destruct a; [|destruct o]; rewrite ?setitem_at_query_config; reflexivity.
Qed.

Lemma jobs_query_results_run job_id page_size timeout start_index st :
  jobs_query_results job_id page_size timeout start_index st =
  Http_request
    (_ENDPOINT +:+ "/projects/" +:+ _project_id (self st) +:+ "/queries/" +:+ job_id)
    (Some {[
       "maxResults" :=
         VInt (if (page_size =? 0)%Z then _DEFAULT_PAGE_SIZE else page_size);
       "timeoutMs" :=
         opt_int (match timeout with
                  | None => Some _DEFAULT_TIMEOUT
                  | Some _ => timeout
                  end);
       "startIndex" := VInt start_index ]})
    None None (Some (_credentials (self st))) st.
Proof. unfold jobs_query_results. run_method. reflexivity. Qed.

Lemma datasets_insert_run dataset_id friendly_name description st :
  datasets_insert dataset_id friendly_name description st =
  bind
    (Http_request
       (_ENDPOINT +:+ "/projects/" +:+ _project_id (self st) +:+ "/datasets/")
       None
       (Some (VDict
          (let data : gmap string value := {[
             "kind" := VStr "bigquery#dataset";
             "datasetReference" := VDict {[
               "projectId" := VStr (_project_id (self st));
               "datasetId" := VStr dataset_id ]} ]} in
           let data :=
             if truthy (opt_str friendly_name)
             then <["friendlyName" := opt_str friendly_name]> data else data in
           if truthy (opt_str description)
           then <["description" := opt_str description]> data else data)))
       None (Some (_credentials (self st))))
    self_link_or_None st.
Proof. unfold datasets_insert. run_method. reflexivity. Qed.

Lemma tables_insert_run dataset_id table_id schema friendly_name description st :
  tables_insert dataset_id table_id schema friendly_name description st =
  bind
    (Http_request
       (_ENDPOINT +:+ "/projects/" +:+ _project_id (self st) +:+ "/datasets/"
          +:+ dataset_id +:+ "/tables/")
       None
       (Some (VDict
          (let data : gmap string value := {[
             "kind" := VStr "bigquery#table";
             "tableReference" := VDict {[
               "projectId" := VStr (_project_id (self st));
               "datasetId" := VStr dataset_id;
               "tableId" := VStr table_id ]};
             "schema" := VDict {[ "fields" := schema ]} ]} in
           let data :=
             if truthy (opt_str friendly_name)
             then <["friendlyName" := opt_str friendly_name]> data else data in
           if truthy (opt_str description)
           then <["description" := opt_str description]> data else data)))
       None (Some (_credentials (self st))))
    self_link_or_None st.
Proof. unfold tables_insert. run_method. reflexivity. Qed.

Lemma datasets_delete_run dataset_id delete_contents st :
  datasets_delete dataset_id delete_contents st =
  Http_request
    (_ENDPOINT +:+ "/projects/" +:+ _project_id (self st) +:+ "/datasets/" +:+ dataset_id)
    None None (Some "DELETE") (Some (_credentials (self st))) st.
Proof. unfold datasets_delete. run_method. reflexivity. Qed.

Lemma datasets_get_run dataset_id st :
  datasets_get dataset_id st =
  Http_request
    (_ENDPOINT +:+ "/projects/" +:+ _project_id (self st) +:+ "/datasets/" +:+ dataset_id)
    None None None (Some (_credentials (self st))) st.
Proof. unfold datasets_get. run_method. reflexivity. Qed.

Lemma datasets_list_run max_results page_token st :
  datasets_list max_results page_token st =
  Http_request
    (_ENDPOINT +:+ "/projects/" +:+ _project_id (self st) +:+ "/datasets/")
    (Some (list_args max_results page_token))
    None None (Some (_credentials (self st))) st.
Proof. unfold datasets_list. run_method. reflexivity. Qed.

Lemma tables_get_run project dataset table st :
  tables_get [project; dataset; table] st =
  Http_request
    (_ENDPOINT +:+ "/projects/" +:+ project +:+ "/datasets/" +:+ dataset
       +:+ "/tables/" +:+ table)
    None None None (Some (_credentials (self st))) st.
Proof. unfold tables_get. run_method. reflexivity. Qed.

Lemma tables_list_run dataset_id max_results page_token st :
  tables_list dataset_id max_results page_token st =
  Http_request
    (_ENDPOINT +:+ "/projects/" +:+ _project_id (self st) +:+ "/datasets/"
       +:+ dataset_id +:+ "/tables/")
    (Some (list_args max_results page_token))
    None None (Some (_credentials (self st))) st.
Proof. unfold tables_list. run_method. reflexivity. Qed.

Lemma tables_insertAll_run dataset_id table_id rows st :
  tables_insertAll dataset_id table_id rows st =
  Http_request
    ((_ENDPOINT +:+ "/projects/" +:+ _project_id (self st) +:+ "/datasets/"
        +:+ dataset_id +:+ "/tables/" +:+ table_id) +:+ "/insertAll")
    None
    (Some (VDict {[
       "kind" := VStr "bigquery#tableDataInsertAllRequest";
       "rows" := rows ]}))
    None (Some (_credentials (self st))) st.
Proof. unfold tables_insertAll. run_method. reflexivity. Qed.

Lemma table_delete_run dataset_id table_id st :
  table_delete dataset_id table_id st =
  Http_request
    (_ENDPOINT +:+ "/projects/" +:+ _project_id (self st) +:+ "/datasets/"
       +:+ dataset_id +:+ "/tables/" +:+ table_id)
    None None (Some "DELETE") (Some (_credentials (self st))) st.
Proof. unfold table_delete. run_method. reflexivity. Qed.

(** *** Submitting a query job *)

(** C1. The body of [jobs_insert_query] has a [destinationTable] block
    exactly when both [dataset_id] and [table_id] are supplied. When
    both are, the block names the client's project and the two ids, and
    [writeDisposition] is WRITE_APPEND if [append] is set, else
    WRITE_TRUNCATE if [overwrite] is set, else absent. When one of them
    is missing the body is the bare job description, with no destination
    and no write disposition. *)
Theorem jobs_insert_query_destination sql dataset_id table_id
    (append overwrite dry_run use_cache : bool) st :
  exists body,
    sent (snd (jobs_insert_query sql dataset_id table_id append overwrite
                 dry_run use_cache st)) =
      sent st ++
      [Request (_ENDPOINT +:+ "/projects/" +:+ _project_id (self st) +:+ "/jobs")
         None (Some body) None (Some (_credentials (self st)))] /\
    (is_Some (lookup_path ["configuration"; "query"; "destinationTable"] body)
       <-> supplied dataset_id /\ supplied table_id) /\
    (forall d t, dataset_id = Some d -> table_id = Some t -> d <> "" -> t <> "" ->
       lookup_path ["configuration"; "query"; "destinationTable"] body =
         Some (VDict {[ "projectId" := VStr (_project_id (self st));
                        "datasetId" := VStr d;
                        "tableId" := VStr t ]}) /\
       lookup_path ["configuration"; "query"; "writeDisposition"] body =
         if append then Some (VStr "WRITE_APPEND")
         else if overwrite then Some (VStr "WRITE_TRUNCATE")
         else None) /\
    (~ (supplied dataset_id /\ supplied table_id) ->
       body = VDict {[
         "kind" := VStr "bigquery#job";
         "configuration" := VDict {[
           "query" := VDict {[
             "query" := VStr sql;
             "useQueryCache" := VBool use_cache ]};
           "dryRun" := VBool dry_run;
           "priority" := VStr "INTERACTIVE" ]} ]}).
Proof.
  rewrite jobs_insert_query_run, Http_request_sent.
  eexists. split; [reflexivity|].
  rewrite !lookup_path_query_config. cbn zeta.
  destruct (truthy (py_and (opt_str dataset_id) (opt_str table_id))) eqn:E.
  - apply both_supplied in E. split; [|split].
    + split; [intros _; exact E|intros _].
      destruct append; [|destruct overwrite];
        rewrite ?(lookup_insert_ne _ "writeDisposition") by done;
        rewrite lookup_insert_eq; eauto.
    + intros d t -> -> _ _. cbn [opt_str].
      destruct append; [|destruct overwrite];
        rewrite ?(lookup_insert_ne _ "writeDisposition" "destinationTable") by done;
        rewrite ?lookup_insert_eq; split; reflexivity.
    + intros H. contradiction.
  - assert (~ (supplied dataset_id /\ supplied table_id)) as Hn.
    { intros H. apply both_supplied in H. congruence. }
    split; [|split].
    + split; [|intros H; contradiction].
      rewrite lookup_insert_ne by done. rewrite lookup_singleton_ne by done.
      intros [v Hv]. discriminate.
    + intros d t -> -> Hd Ht. exfalso. apply Hn. split; eexists; eauto.
    + intros _. reflexivity.
Qed.

(** C4. [jobs_insert_query("SELECT 1", dataset_id="d1", table_id="t1",
    overwrite=True)], the other parameters at their defaults, sends
    exactly the body of the end-to-end example, [P] being the client's
    project id. *)
Theorem jobs_insert_query_example st :
  sent (snd (jobs_insert_query "SELECT 1" (Some "d1") (Some "t1")
               false true false true st)) =
  sent st ++
  [Request (_ENDPOINT +:+ "/projects/" +:+ _project_id (self st) +:+ "/jobs")
     None
     (Some (VDict {[
        "kind" := VStr "bigquery#job";
        "configuration" := VDict {[
          "query" := VDict {[
            "query" := VStr "SELECT 1";
            "useQueryCache" := VBool true;
            "destinationTable" := VDict {[
              "projectId" := VStr (_project_id (self st));
              "datasetId" := VStr "d1";
              "tableId" := VStr "t1" ]};
            "writeDisposition" := VStr "WRITE_TRUNCATE" ]};
          "dryRun" := VBool false;
          "priority" := VStr "INTERACTIVE" ]} ]}))
     None (Some (_credentials (self st)))].
Proof.
  rewrite jobs_insert_query_run, Http_request_sent.
  reflexivity.
Qed.

(** *** Page size and timeout *)

(** C2. [jobs_query] and [jobs_query_results] send [maxResults] = 10000
    when [page_size] is the sentinel 0 and [timeoutMs] = 60000 when
    [timeout] is the sentinel [None]; whatever the caller passes,
    [maxResults] is never 0 and [timeoutMs] is never [None]. *)
Theorem page_size_timeout_defaults sql job_id page_size timeout
    (dry_run use_cache : bool) start_index st :
  exists max_results timeout_ms,
    sent (snd (jobs_query sql page_size timeout dry_run use_cache st)) =
      sent st ++
      [Request (_ENDPOINT +:+ "/projects/" +:+ _project_id (self st) +:+ "/queries")
         None
         (Some (VDict {[
            "kind" := VStr "bigquery#queryRequest";
            "query" := VStr sql;
            "maxResults" := max_results;
            "timeoutMs" := timeout_ms;
            "dryRun" := VBool dry_run;
            "useQueryCache" := VBool use_cache ]}))
         None (Some (_credentials (self st)))] /\
    sent (snd (jobs_query_results job_id page_size timeout start_index st)) =
      sent st ++
      [Request (_ENDPOINT +:+ "/projects/" +:+ _project_id (self st)
                  +:+ "/queries/" +:+ job_id)
         (Some {[
            "maxResults" := max_results;
            "timeoutMs" := timeout_ms;
            "startIndex" := VInt start_index ]})
         None None (Some (_credentials (self st)))] /\
    (page_size = 0 -> max_results = VInt 10000) /\
    (page_size <> 0 -> max_results = VInt page_size) /\
    (timeout = None -> timeout_ms = VInt 60000) /\
    (forall t, timeout = Some t -> timeout_ms = VInt t) /\
    max_results <> VInt 0 /\
    timeout_ms <> VNone.
Proof.
  rewrite jobs_query_run, jobs_query_results_run, !Http_request_sent.
  do 2 eexists. split; [reflexivity|]. split; [reflexivity|].
  repeat split.
  - intros ->. reflexivity.
  - intros H. apply Z.eqb_neq in H. now rewrite H.
  - intros ->. reflexivity.
  - intros t ->. reflexivity.
  - destruct (Z.eqb_spec page_size 0); [discriminate | congruence].
  - destruct timeout; discriminate.
Qed.

(** *** Deleting *)

(** C3. [datasets_delete] builds [{'deleteContents': True}] in its local
    [args] when [delete_contents] is true, but the request it hands to
    the transport has no [args] keyword at all, and is the same request
    whatever [delete_contents] is. *)
Theorem datasets_delete_drops_args dataset_id (delete_contents : bool) st :
  datasets_delete_args true = {[ "deleteContents" := VBool true ]} /\
  sent (snd (datasets_delete dataset_id delete_contents st)) =
    sent st ++
    [Request (_ENDPOINT +:+ "/projects/" +:+ _project_id (self st)
                +:+ "/datasets/" +:+ dataset_id)
       None None (Some "DELETE") (Some (_credentials (self st)))] /\
  (forall req, In req (sent (snd (datasets_delete dataset_id delete_contents st))) ->
     In req (sent st) \/ args req = None) /\
  datasets_delete dataset_id delete_contents st =
    datasets_delete dataset_id (negb delete_contents) st.
Proof.
  rewrite !datasets_delete_run, Http_request_sent.
  split; [reflexivity|]. split; [reflexivity|]. split; [|reflexivity].
  intros req H. apply in_app_or in H. destruct H as [H|[<-|[]]]; auto.
Qed.

(** C7. [table_delete] and [datasets_delete] call the transport with
    method DELETE on the URL obtained by putting the project id and the
    caller's dataset id (and table id) into the tables (datasets) path
    template. *)
Theorem delete_requests dataset_id table_id (delete_contents : bool) st :
  (exists path,
     percent_format _TABLES_PATH [_project_id (self st); dataset_id; table_id] = Ok path /\
     path = "/projects/" +:+ _project_id (self st) +:+ "/datasets/" +:+ dataset_id
              +:+ "/tables/" +:+ table_id /\
     sent (snd (table_delete dataset_id table_id st)) =
       sent st ++
       [Request (_ENDPOINT +:+ path) None None (Some "DELETE")
          (Some (_credentials (self st)))]) /\
  (exists path,
     percent_format _DATASETS_PATH [_project_id (self st); dataset_id] = Ok path /\
     path = "/projects/" +:+ _project_id (self st) +:+ "/datasets/" +:+ dataset_id /\
     sent (snd (datasets_delete dataset_id delete_contents st)) =
       sent st ++
       [Request (_ENDPOINT +:+ path) None None (Some "DELETE")
          (Some (_credentials (self st)))]).
Proof.
  split; eexists.
  - rewrite format_TABLES, table_delete_run, Http_request_sent. auto.
  - rewrite format_DATASETS, datasets_delete_run, Http_request_sent. auto.
Qed.

(** *** Optional fields and arguments *)

Lemma optional_field_lookup key (o : option string) (m : gmap string value) :
  m !! key = None ->
  (is_Some ((if truthy (opt_str o) then <[key := opt_str o]> m else m) !! key)
     <-> supplied o) /\
  (forall s, o = Some s -> s <> "" ->
     (if truthy (opt_str o) then <[key := opt_str o]> m else m) !! key = Some (VStr s)).
Proof.
  intros Hm. destruct (truthy (opt_str o)) eqn:E.
  - rewrite lookup_insert_eq. apply truthy_opt_str in E. split.
    + split; eauto.
    + intros s -> _. reflexivity.
  - assert (~ supplied o) as Hn.
    { intros H. apply truthy_opt_str in H. congruence. }
    rewrite Hm. split.
    + split; [intros [v Hv]; discriminate | intros H; contradiction].
    + intros s -> Hs. exfalso. apply Hn. exists s. auto.
Qed.

Lemma optional_field_other key key' (o : option string) (m : gmap string value) :
  key <> key' ->
  (if truthy (opt_str o) then <[key := opt_str o]> m else m) !! key' = m !! key'.
Proof. intros H. destruct (truthy (opt_str o)); [now apply lookup_insert_ne | reflexivity]. Qed.

(** C8. The bodies of [datasets_insert] and [tables_insert] have a
    [friendlyName] key exactly when [friendly_name] is supplied and a
    [description] key exactly when [description] is supplied; the values
    under them are the caller's strings. *)
Theorem insert_optional_fields dataset_id table_id schema friendly_name description st :
  (exists body : gmap string value,
     sent (snd (datasets_insert dataset_id friendly_name description st)) =
       sent st ++
       [Request (_ENDPOINT +:+ "/projects/" +:+ _project_id (self st) +:+ "/datasets/")
          None (Some (VDict body)) None (Some (_credentials (self st)))] /\
     (is_Some (body !! "friendlyName") <-> supplied friendly_name) /\
     (forall s, friendly_name = Some s -> s <> "" ->
        body !! "friendlyName" = Some (VStr s)) /\
     (is_Some (body !! "description") <-> supplied description) /\
     (forall s, description = Some s -> s <> "" ->
        body !! "description" = Some (VStr s))) /\
  (exists body : gmap string value,
     sent (snd (tables_insert dataset_id table_id schema friendly_name description st)) =
       sent st ++
       [Request (_ENDPOINT +:+ "/projects/" +:+ _project_id (self st) +:+ "/datasets/"
                   +:+ dataset_id +:+ "/tables/")
          None (Some (VDict body)) None (Some (_credentials (self st)))] /\
     (is_Some (body !! "friendlyName") <-> supplied friendly_name) /\
     (forall s, friendly_name = Some s -> s <> "" ->
        body !! "friendlyName" = Some (VStr s)) /\
     (is_Some (body !! "description") <-> supplied description) /\
     (forall s, description = Some s -> s <> "" ->
        body !! "description" = Some (VStr s))).
Proof.
  split.
  - rewrite datasets_insert_run.
    rewrite bind_Http_request_sent by (intros; apply self_link_or_None_state).
    eexists. split; [reflexivity|]. cbn zeta.
    rewrite (optional_field_other "description" "friendlyName") by done.
    split; [|split; [|split]];
      try (apply optional_field_lookup; reflexivity).
    all: apply optional_field_lookup;
      rewrite optional_field_other by done; reflexivity.
  - rewrite tables_insert_run.
    rewrite bind_Http_request_sent by (intros; apply self_link_or_None_state).
    eexists. split; [reflexivity|]. cbn zeta.
    rewrite (optional_field_other "description" "friendlyName") by done.
    split; [|split; [|split]];
      try (apply optional_field_lookup; reflexivity).
    all: apply optional_field_lookup;
      rewrite optional_field_other by done; reflexivity.
Qed.

(** C6. [datasets_list] and [tables_list] send a query-argument mapping
    that has no [maxResults] key when [max_results] is 0 and no
    [pageToken] key when [page_token] is [None]; otherwise the keys hold
    the caller's values. The mapping has no other key. *)
Theorem list_paging_args dataset_id max_results page_token st :
  exists query_args : gmap string value,
    sent (snd (datasets_list max_results page_token st)) =
      sent st ++
      [Request (_ENDPOINT +:+ "/projects/" +:+ _project_id (self st) +:+ "/datasets/")
         (Some query_args) None None (Some (_credentials (self st)))] /\
    sent (snd (tables_list dataset_id max_results page_token st)) =
      sent st ++
      [Request (_ENDPOINT +:+ "/projects/" +:+ _project_id (self st) +:+ "/datasets/"
                  +:+ dataset_id +:+ "/tables/")
         (Some query_args) None None (Some (_credentials (self st)))] /\
    (max_results = 0 -> query_args !! "maxResults" = None) /\
    (max_results <> 0 -> query_args !! "maxResults" = Some (VInt max_results)) /\
    (page_token = None -> query_args !! "pageToken" = None) /\
    (forall token, page_token = Some token ->
       query_args !! "pageToken" = Some (VStr token)) /\
    (forall key, key <> "maxResults" -> key <> "pageToken" ->
       query_args !! key = None).
Proof.
  rewrite datasets_list_run, tables_list_run, !Http_request_sent.
  eexists. split; [reflexivity|]. split; [reflexivity|].
  unfold list_args.
  destruct (Z.eqb_spec max_results 0) as [Hz|Hz]; cbn [negb];
    destruct page_token as [token|]; repeat split;
    try congruence; try discriminate; try reflexivity.
  all: try (intros ? [= <-]; reflexivity).
  all: try (intros k H1 H2; rewrite ?lookup_insert_ne by done; apply lookup_empty).
  all: intros _; reflexivity.
Qed.

(** *** Creating a dataset or a table *)

Lemma insert_result u a d m c st req (resp : gmap string value) w :
  sent (snd (bind (Http_request u a d m c) self_link_or_None st)) = sent st ++ [req] ->
  Http_transport req (net st) = (Ok (VDict resp), w) ->
  fst (bind (Http_request u a d m c) self_link_or_None st) =
  match resp !! "selfLink" with
  | Some link => Ok link
  | None => Ok VNone
  end.
Proof.
  rewrite bind_Http_request_sent by (intros; apply self_link_or_None_state).
  intros Hreq Ht. apply app_inv_head in Hreq. injection Hreq as <-.
  unfold bind, Http_request. rewrite Ht.
  apply self_link_or_None_dict.
Qed.

(** C5. When the transport answers the request of [datasets_insert] or
    [tables_insert] with a dictionary, the method returns the value
    under [selfLink] if the dictionary has that key, and [None] if it
    has not; it does not raise. *)
Theorem insert_returns_self_link :
  (forall dataset_id friendly_name description st req (resp : gmap string value) w,
     sent (snd (datasets_insert dataset_id friendly_name description st)) =
       sent st ++ [req] ->
     Http_transport req (net st) = (Ok (VDict resp), w) ->
     fst (datasets_insert dataset_id friendly_name description st) =
       match resp !! "selfLink" with
       | Some link => Ok link
       | None => Ok VNone
       end) /\
  (forall dataset_id table_id schema friendly_name description st req
          (resp : gmap string value) w,
     sent (snd (tables_insert dataset_id table_id schema friendly_name description st)) =
       sent st ++ [req] ->
     Http_transport req (net st) = (Ok (VDict resp), w) ->
     fst (tables_insert dataset_id table_id schema friendly_name description st) =
       match resp !! "selfLink" with
       | Some link => Ok link
       | None => Ok VNone
       end).
Proof.
  split; intros.
  - rewrite datasets_insert_run in *. eapply insert_result; eauto.
  - rewrite tables_insert_run in *. eapply insert_result; eauto.
Qed.

(** *** The client context *)

Lemma tables_get_self name_parts st :
  self (snd (tables_get name_parts st)) = self st.
Proof.
  unfold tables_get, bind, lift, self_credentials.
  destruct (percent_format _TABLES_PATH name_parts); [|reflexivity].
  apply Http_request_self.
Qed.

Lemma bind_Http_request_self {B} u a d m c (k : value -> M B) st :
  (forall v st', snd (k v st') = st') ->
  self (snd (bind (Http_request u a d m c) k st)) = self st.
Proof.
  intros Hk. unfold bind.
  pose proof (Http_request_self u a d m c st) as Hs.
  destruct (Http_request u a d m c st) as [[v|e] st']; cbn in *.
  - now rewrite Hk.
  - exact Hs.
Qed.

Lemma invoke_self c st : self (snd (invoke c st)) = self st.
Proof.
  destruct c; cbn [invoke].
  - reflexivity.
  - rewrite jobs_insert_query_run. apply Http_request_self.
  - rewrite jobs_query_run. apply Http_request_self.
  - rewrite jobs_query_results_run. apply Http_request_self.
  - rewrite datasets_insert_run. apply bind_Http_request_self.
    intros; apply self_link_or_None_state.
  - rewrite datasets_delete_run. apply Http_request_self.
  - rewrite datasets_get_run. apply Http_request_self.
  - rewrite datasets_list_run. apply Http_request_self.
  - apply tables_get_self.
  - rewrite tables_list_run. apply Http_request_self.
  - rewrite tables_insert_run. apply bind_Http_request_self.
    intros; apply self_link_or_None_state.
  - rewrite tables_insertAll_run. apply Http_request_self.
  - rewrite table_delete_run. apply Http_request_self.
Qed.

Lemma invoke_all_self cs st : self (snd (invoke_all cs st)) = self st.
Proof.
  revert st. induction cs as [|c cs IH]; intros st; cbn [invoke_all].
  - reflexivity.
  - pose proof (invoke_self c st) as Hc.
    destruct (invoke c st) as [r st']. cbn in Hc.
    specialize (IH st'). destruct (invoke_all cs st') as [rs st''].
    cbn in *. congruence.
Qed.

(** C9. After any sequence of method calls on an instance built by
    [__init__ creds p], whatever the transport answers and whether or
    not calls raise, the instance still holds [creds] and [p]. *)
Theorem client_context_immutable creds p (w : world) (log : list request)
    (cs : list call) :
  let st' := snd (invoke_all cs (State (__init__ creds p) w log)) in
  _credentials (self st') = creds /\ _project_id (self st') = p.
Proof.
  cbn zeta. rewrite invoke_all_self. split; reflexivity.
Qed.

(** *** Looking up a table *)

Lemma append_assoc (a b c : string) : (a +:+ b) +:+ c = a +:+ (b +:+ c).
Proof.
  induction a as [|x a IH]; [reflexivity|].
  change (String x ((a +:+ b) +:+ c) = String x (a +:+ (b +:+ c))).
  now rewrite IH.
Qed.

(** C10. [tables_get] never reads the instance's project id: run on two
    instances that differ only in their project id it behaves the same.
    Its URL is the tables path template filled with the three elements
    of [name_parts], so some [name_parts] give a URL that is not under
    the client's project, whereas every other method that calls the
    transport uses a URL under [/projects/<project id>/]. *)
Theorem tables_get_ignores_project_id :
  (forall name_parts creds p p' (w : world) (log : list request),
     let st := State {| _credentials := creds; _project_id := p |} w log in
     let st' := State {| _credentials := creds; _project_id := p' |} w log in
     fst (tables_get name_parts st) = fst (tables_get name_parts st') /\
     sent (snd (tables_get name_parts st)) = sent (snd (tables_get name_parts st')) /\
     net (snd (tables_get name_parts st)) = net (snd (tables_get name_parts st'))) /\
  (forall project dataset table st,
     sent (snd (tables_get [project; dataset; table] st)) =
       sent st ++
       [Request (_ENDPOINT +:+ "/projects/" +:+ project +:+ "/datasets/" +:+ dataset
                   +:+ "/tables/" +:+ table)
          None None None (Some (_credentials (self st)))]) /\
  (forall st, exists project dataset table req,
     sent (snd (tables_get [project; dataset; table] st)) = sent st ++ [req] /\
     project <> _project_id (self st) /\
     forall rest,
       url req <> _ENDPOINT +:+ "/projects/" +:+ _project_id (self st) +:+ "/" +:+ rest) /\
  (forall c st,
     (forall name_parts, c <> Call_tables_get name_parts) ->
     c <> Call_project_id ->
     exists req rest,
       sent (snd (invoke c st)) = sent st ++ [req] /\
       url req = _ENDPOINT +:+ "/projects/" +:+ _project_id (self st) +:+ "/" +:+ rest).
Proof.
  split; [|split; [|split]].
  - intros name_parts creds p p' w log. cbn zeta.
    unfold tables_get, bind, lift, self_credentials, Http_request.
    destruct (percent_format _TABLES_PATH name_parts) as [path|e]; cbn; [|auto].
    match goal with
    | |- context [Http_transport ?req w] => destruct (Http_transport req w) as [r w']
    end.
    cbn. auto.
  - intros. rewrite tables_get_run. apply Http_request_sent.
  - intros st.
    exists (_project_id (self st) +:+ "x"), "d", "t". eexists.
    split; [rewrite tables_get_run; apply Http_request_sent|].
    split.
    + intros H. rewrite <- (append_nil_r (_project_id (self st))) in H at 2.
      apply (inj (String.app _)) in H. discriminate.
    + intros rest H. cbn [url] in H.
      apply (inj (String.app _)) in H. apply (inj (String.app _)) in H.
      rewrite append_assoc in H. apply (inj (String.app _)) in H.
      discriminate.
  - intros c st Hget Hprop. destruct c; cbn [invoke].
    + contradiction.
    + eexists. exists "jobs".
      rewrite jobs_insert_query_run, Http_request_sent. split; reflexivity.
    + eexists. exists "queries".
      rewrite jobs_query_run, Http_request_sent. split; reflexivity.
    + eexists. exists ("queries/" +:+ job_id).
      rewrite jobs_query_results_run, Http_request_sent. split; reflexivity.
    + eexists. exists "datasets/".
      rewrite datasets_insert_run.
      rewrite bind_Http_request_sent by (intros; apply self_link_or_None_state).
      split; reflexivity.
    + eexists. exists ("datasets/" +:+ dataset_id).
      rewrite datasets_delete_run, Http_request_sent. split; reflexivity.
    + eexists. exists ("datasets/" +:+ dataset_id).
      rewrite datasets_get_run, Http_request_sent. split; reflexivity.
    + eexists. exists "datasets/".
      rewrite datasets_list_run, Http_request_sent. split; reflexivity.
    + exfalso. eapply Hget. reflexivity.
    + eexists. exists ("datasets/" +:+ dataset_id +:+ "/tables/").
      rewrite tables_list_run, Http_request_sent. split; reflexivity.
    + eexists. exists ("datasets/" +:+ dataset_id +:+ "/tables/").
      rewrite tables_insert_run.
      rewrite bind_Http_request_sent by (intros; apply self_link_or_None_state).
      split; reflexivity.
    + eexists.
      exists ("datasets/" +:+ dataset_id +:+ "/tables/" +:+ table_id +:+ "/insertAll").
      rewrite tables_insertAll_run, Http_request_sent. split; [reflexivity|].
      cbn [url]. rewrite !append_assoc. reflexivity.
    + eexists. exists ("datasets/" +:+ dataset_id +:+ "/tables/" +:+ table_id).
      rewrite table_delete_run, Http_request_sent. split; reflexivity.
Qed.

(** *** Outcomes of a call *)

Lemma app_singleton_not_nil {A} (l : list A) (x : A) : l = l ++ [x] -> False.
Proof.
  intros H. apply (f_equal length) in H. rewrite length_app in H.
  cbn in H. lia.
Qed.

Lemma Http_request_outcome u a d m c st :
  Http_request u a d m c st =
  (fst (Http_transport (Request u a d m c) (net st)),
   State (self st) (snd (Http_transport (Request u a d m c) (net st)))
     (sent st ++ [Request u a d m c])).
Proof. unfold Http_request. destruct (Http_transport _ _); reflexivity. Qed.

Lemma tables_get_cases name_parts st :
  (exists project dataset table, name_parts = [project; dataset; table]) \/
  (exists msg, tables_get name_parts st = (Raise (TypeError msg), st)).
Proof.
  destruct name_parts as [|a [|b [|c [|d rest]]]].
  - right. eexists. reflexivity.
  - right. eexists. reflexivity.
  - right. eexists. reflexivity.
  - left. eauto.
  - right. eexists. reflexivity.
Qed.

(** Rewrites a call of a method into the transport call it makes. *)
Ltac to_transport :=
  rewrite ?jobs_insert_query_run, ?jobs_query_run, ?jobs_query_results_run,
    ?datasets_insert_run, ?datasets_delete_run, ?datasets_get_run,
    ?datasets_list_run, ?tables_get_run, ?tables_list_run, ?tables_insert_run,
    ?tables_insertAll_run, ?table_delete_run in *.

Lemma passthrough_outcome u a d m c st req :
  sent (snd (Http_request u a d m c st)) = sent st ++ [req] ->
  Http_request u a d m c st =
  (fst (Http_transport req (net st)),
   State (self st) (snd (Http_transport req (net st))) (sent st ++ [req])).
Proof.
  rewrite Http_request_sent. intros H. apply app_inv_head in H.
  injection H as <-. apply Http_request_outcome.
Qed.

Lemma invoke_passthrough c st req :
  (forall d fn ds, c <> Call_datasets_insert d fn ds) ->
  (forall d t sc fn ds, c <> Call_tables_insert d t sc fn ds) ->
  sent (snd (invoke c st)) = sent st ++ [req] ->
  invoke c st =
  (fst (Http_transport req (net st)),
   State (self st) (snd (Http_transport req (net st))) (sent st ++ [req])).
Proof.
  intros Hds Htb.
  destruct c; cbn [invoke];
    try (intros H; to_transport; now apply passthrough_outcome).
  - intros H. cbn in H. now apply app_singleton_not_nil in H.
  - exfalso. eapply Hds. reflexivity.
  - destruct (tables_get_cases name_parts st) as [(p & d & t & ->)|[msg Hr]].
    + intros H. to_transport. now apply passthrough_outcome.
    + rewrite Hr. cbn. intros H. now apply app_singleton_not_nil in H.
  - exfalso. eapply Htb. reflexivity.
Qed.

(** X1. The methods that return the transport's answer as it is
    (every method that calls the transport except the two that create a
    dataset or a table): the outcome of the call, a response or an
    exception, is the transport's outcome on the request sent, and the
    world is left as the transport left it. *)
Theorem passthrough_returns_transport_result c st req :
  (forall d fn ds, c <> Call_datasets_insert d fn ds) ->
  (forall d t sc fn ds, c <> Call_tables_insert d t sc fn ds) ->
  sent (snd (invoke c st)) = sent st ++ [req] ->
  invoke c st =
  (fst (Http_transport req (net st)),
   State (self st) (snd (Http_transport req (net st))) (sent st ++ [req])).
Proof. apply invoke_passthrough. Qed.

(** X2. An exception raised by the transport comes out of every method
    unchanged: no method catches, wraps or retries. *)
Theorem transport_error_propagates c st req e w :
  sent (snd (invoke c st)) = sent st ++ [req] ->
  Http_transport req (net st) = (Raise e, w) ->
  invoke c st = (Raise e, State (self st) w (sent st ++ [req])).
Proof.
  intros Hs Ht.
  assert (forall u a d m cr (k : value -> M value),
            sent (snd (bind (Http_request u a d m cr) k st)) = sent st ++ [req] ->
            (forall v st', snd (k v st') = st') ->
            bind (Http_request u a d m cr) k st =
            (Raise e, State (self st) w (sent st ++ [req]))) as Hbind.
  { intros u a d m cr k H Hk.
    rewrite bind_Http_request_sent in H by exact Hk.
    apply app_inv_head in H. injection H as <-.
    unfold bind. rewrite Http_request_outcome, Ht. reflexivity. }
  assert ((forall d fn ds, c <> Call_datasets_insert d fn ds) ->
          (forall d t sc fn ds, c <> Call_tables_insert d t sc fn ds) ->
          invoke c st = (Raise e, State (self st) w (sent st ++ [req]))) as Hpass.
  { intros H1 H2.
    rewrite (invoke_passthrough c st req H1 H2 Hs), Ht.
    reflexivity. }
  destruct c; try (apply Hpass; intros; discriminate); cbn [invoke] in *.
  - to_transport. apply Hbind; [exact Hs | apply self_link_or_None_state].
  - to_transport. apply Hbind; [exact Hs | apply self_link_or_None_state].
Qed.

(** X3. [tables_get] needs exactly three name parts: with three it sends
    one request, with method, arguments and body left out, to the URL
    built from them; with any other number the formatting raises
    [TypeError] and nothing is sent. *)
Theorem tables_get_arity name_parts st :
  (forall project dataset table, name_parts = [project; dataset; table] ->
     sent (snd (tables_get name_parts st)) =
       sent st ++
       [Request (_ENDPOINT +:+ "/projects/" +:+ project +:+ "/datasets/" +:+ dataset
                   +:+ "/tables/" +:+ table)
          None None None (Some (_credentials (self st)))]) /\
  (length name_parts <> 3%nat ->
     exists msg, tables_get name_parts st = (Raise (TypeError msg), st)).
Proof.
  split.
  - intros p d t ->. rewrite tables_get_run. apply Http_request_sent.
  - intros Hlen.
    destruct (tables_get_cases name_parts st) as [(p & d & t & ->)|H];
      [cbn in Hlen; lia | exact H].
Qed.

(** *** The requests a caller can cause *)

(** What every request of the wrapper looks like, for the instance of
    state [st]: it carries the instance's credentials, goes to a URL
    under the endpoint's [/projects/], has either no method or DELETE
    with neither arguments nor body, and never has both arguments and a
    body. *)
Local Abbreviation wrapper_request st req :=
  (request_credentials req = Some (_credentials (self st)) /\
   (exists rest, url req = _ENDPOINT +:+ "/projects/" +:+ rest) /\
   (method req = None \/
    (method req = Some "DELETE" /\ args req = None /\ data req = None)) /\
   (args req = None \/ data req = None)).



(** X5. The [project_id] property, read after any sequence of calls on an
    instance built for project [p], gives [p], sends nothing and leaves
    the state as it is. *)
Theorem project_id_after_calls creds p (w : world) (log : list request)
    (cs : list call) :
  let st' := snd (invoke_all cs (State (__init__ creds p) w log)) in
  project_id st' = (Ok (VStr p), st').
Proof.
  cbn zeta. unfold project_id, bind, self_project_id, ret.
  rewrite invoke_all_self. reflexivity.
Qed.

(** *** Responses that are not dictionaries *)

Lemma insert_outcome u a d m c st req resp w :
  sent (snd (bind (Http_request u a d m c) self_link_or_None st)) = sent st ++ [req] ->
  Http_transport req (net st) = (Ok resp, w) ->
  fst (bind (Http_request u a d m c) self_link_or_None st) =
  fst (self_link_or_None resp (State (self st) w (sent st ++ [req]))).
Proof.
  rewrite bind_Http_request_sent by (intros; apply self_link_or_None_state).
  intros Hreq Ht. apply app_inv_head in Hreq. injection Hreq as <-.
  unfold bind. rewrite Http_request_outcome, Ht. reflexivity.
Qed.

Lemma list_has_selfLink (l : list value) :
  existsb (fun v => match v with VStr s => String.eqb s "selfLink" | _ => false end) l
    = true <-> In (VStr "selfLink") l.
Proof.
  rewrite existsb_exists. split.
  - intros (v & Hin & Hv). destruct v; try discriminate.
    apply String.eqb_eq in Hv. now subst.
  - intros Hin. exists (VStr "selfLink"). split; [exact Hin | reflexivity].
Qed.

(** X6. When the transport answers [datasets_insert] or [tables_insert]
    with something that is not a dictionary, no link comes back: the
    method returns [None] or raises [TypeError]. It raises on [None], a
    boolean or an integer (the membership test fails) and on a list that
    has the string [selfLink] as an element (the indexing fails); it
    returns [None] on a list without that element. *)
Theorem insert_non_mapping_response c st req resp w :
  (exists d fn ds, c = Call_datasets_insert d fn ds) \/
  (exists d t sc fn ds, c = Call_tables_insert d t sc fn ds) ->
  sent (snd (invoke c st)) = sent st ++ [req] ->
  Http_transport req (net st) = (Ok resp, w) ->
  (forall d, resp <> VDict d) ->
  (fst (invoke c st) = Ok VNone \/
   exists msg, fst (invoke c st) = Raise (TypeError msg)) /\
  (resp = VNone \/ (exists b, resp = VBool b) \/ (exists n, resp = VInt n) ->
   exists msg, fst (invoke c st) = Raise (TypeError msg)) /\
  (forall l, resp = VList l -> In (VStr "selfLink") l ->
   exists msg, fst (invoke c st) = Raise (TypeError msg)) /\
  (forall l, resp = VList l -> ~ In (VStr "selfLink") l ->
   fst (invoke c st) = Ok VNone).
Proof.
  intros Hc Hs Ht Hnd.
  assert (fst (invoke c st) =
          fst (self_link_or_None resp (State (self st) w (sent st ++ [req])))) as ->.
  { destruct Hc as [(d & fn & ds & ->)|(d & t & sc & fn & ds & ->)];
      cbn [invoke] in *; to_transport; eapply insert_outcome; eauto. }
  unfold self_link_or_None, bind, lift, ret, contains, getitem.
  destruct resp as [|b|n|s|l|d]; cbn.
  - repeat split; eauto; intros; discriminate.
  - repeat split; eauto; intros; discriminate.
  - repeat split; eauto; intros; discriminate.
  - destruct (is_substring "selfLink" s); cbn.
    + split; [eauto|]. split; [|split]; try (intros; discriminate).
      intros [H|[[? H]|[? H]]]; discriminate.
    + split; [eauto|]. split; [|split]; try (intros; discriminate).
      intros [H|[[? H]|[? H]]]; discriminate.
  - destruct (existsb _ l) eqn:E; cbn.
    + apply list_has_selfLink in E. split; [eauto|]. split; [|split].
      * intros [H|[[? H]|[? H]]]; discriminate.
      * eauto.
      * intros l' [= <-] Hn. contradiction.
    + assert (~ In (VStr "selfLink") l) as Hn.
      { intros H. apply list_has_selfLink in H. congruence. }
      split; [eauto|]. split; [|split].
      * intros [H|[[? H]|[? H]]]; discriminate.
      * intros l' [= <-] Hin. contradiction.
      * reflexivity.
  - exfalso. eapply Hnd. reflexivity.
Qed.

(** *** How the methods address one resource *)

(** X7. The methods agree on where a resource lives. [datasets_delete]
    sends the request of [datasets_get] with the method set to DELETE,
    and [table_delete] that of [tables_get] on the instance's project;
    [tables_insertAll] posts to the table's URL followed by
    [/insertAll]; creating and listing use one collection URL, which
    does not depend on the id of the dataset or table being created. *)
Theorem resource_urls_agree dataset_id table_id (delete_contents : bool)
    rows schema friendly_name description max_results page_token st :
  (exists get,
     sent (snd (datasets_get dataset_id st)) = sent st ++ [get] /\
     sent (snd (datasets_delete dataset_id delete_contents st)) =
       sent st ++
       [Request (url get) (args get) (data get) (Some "DELETE")
          (request_credentials get)]) /\
  (exists get,
     sent (snd (tables_get [_project_id (self st); dataset_id; table_id] st)) =
       sent st ++ [get] /\
     sent (snd (table_delete dataset_id table_id st)) =
       sent st ++
       [Request (url get) (args get) (data get) (Some "DELETE")
          (request_credentials get)] /\
     exists post,
       sent (snd (tables_insertAll dataset_id table_id rows st)) = sent st ++ [post] /\
       url post = url get +:+ "/insertAll") /\
  (exists list create,
     sent (snd (datasets_list max_results page_token st)) = sent st ++ [list] /\
     sent (snd (datasets_insert dataset_id friendly_name description st)) =
       sent st ++ [create] /\
     url create = url list) /\
  (exists list create,
     sent (snd (tables_list dataset_id max_results page_token st)) = sent st ++ [list] /\
     sent (snd (tables_insert dataset_id table_id schema friendly_name description st)) =
       sent st ++ [create] /\
     url create = url list).
Proof.
  to_transport.
  rewrite !bind_Http_request_sent by (intros; apply self_link_or_None_state).
  rewrite !Http_request_sent.
  split; [|split; [|split]].
  - eexists. split; reflexivity.
  - eexists. split; [reflexivity|]. split; [reflexivity|].
    eexists. split; reflexivity.
  - do 2 eexists. split; [reflexivity|]. split; reflexivity.
  - do 2 eexists. split; [reflexivity|]. split; reflexivity.
Qed.

(** *** Sentinels *)

(** X8. Two [jobs_query] calls that differ only in page size and timeout
    send the same request exactly when the page sizes are equal or are 0
    and 10000, and the timeouts are equal or are [None] and 60000: the
    sentinels cannot be told from the defaults they stand for, every
    other value reaches the request as it is. The same holds for
    [jobs_query_results]. *)
Theorem sentinels_stand_for_defaults sql job_id (dry_run use_cache : bool)
    start_index page_size page_size' timeout timeout' st :
  let same :=
    (page_size = page_size' \/ (page_size = 0 /\ page_size' = 10000) \/
     (page_size = 10000 /\ page_size' = 0)) /\
    (timeout = timeout' \/ (timeout = None /\ timeout' = Some 60000) \/
     (timeout = Some 60000 /\ timeout' = None)) in
  (sent (snd (jobs_query sql page_size timeout dry_run use_cache st)) =
   sent (snd (jobs_query sql page_size' timeout' dry_run use_cache st)) <-> same) /\
  (sent (snd (jobs_query_results job_id page_size timeout start_index st)) =
   sent (snd (jobs_query_results job_id page_size' timeout' start_index st)) <-> same).
Proof.
  cbn zeta. to_transport. rewrite !Http_request_sent.
  assert (forall a b : Z,
            (if (a =? 0)%Z then _DEFAULT_PAGE_SIZE else a) =
            (if (b =? 0)%Z then _DEFAULT_PAGE_SIZE else b) <->
            (a = b \/ (a = 0 /\ b = 10000) \/ (a = 10000 /\ b = 0))) as Hps.
  { intros a b. unfold _DEFAULT_PAGE_SIZE.
    destruct (Z.eqb_spec a 0), (Z.eqb_spec b 0); lia. }
  assert (forall a b : option Z,
            opt_int (match a with None => Some _DEFAULT_TIMEOUT | Some _ => a end) =
            opt_int (match b with None => Some _DEFAULT_TIMEOUT | Some _ => b end) <->
            (a = b \/ (a = None /\ b = Some 60000) \/ (a = Some 60000 /\ b = None))) as Htm.
  { intros [a|] [b|]; unfold _DEFAULT_TIMEOUT; cbn; split.
    - intros [= ->]. auto.
    - intros [[= ->]|[[? ?]|[? ?]]]; try discriminate. reflexivity.
    - intros [= ->]. auto.
    - intros [?|[[? ?]|[[= ->] _]]]; try discriminate. reflexivity.
    - intros [= <-]. auto.
    - intros [?|[[_ [= <-]]|[? ?]]]; try discriminate. reflexivity.
    - auto.
    - reflexivity. }
  split; split.
  - intros H. apply app_inv_head in H.
    pose proof (f_equal (fun l : list request =>
      match l with
      | [Request _ _ (Some (VDict m)) _ _] => m !! "maxResults"
      | _ => None
      end) H) as H1.
    pose proof (f_equal (fun l : list request =>
      match l with
      | [Request _ _ (Some (VDict m)) _ _] => m !! "timeoutMs"
      | _ => None
      end) H) as H2.
    cbn beta iota in H1, H2.
    repeat (rewrite lookup_insert_ne in H1 by done).
    repeat (rewrite lookup_insert_ne in H2 by done).
    rewrite !lookup_insert_eq in H1. rewrite !lookup_insert_eq in H2.
    injection H1 as H1. injection H2 as H2.
    split; [now apply Hps | now apply Htm].
  - intros [H1 H2]. apply Hps in H1. apply Htm in H2. now rewrite H1, H2.
  - intros H. apply app_inv_head in H.
    pose proof (f_equal (fun l : list request =>
      match l with
      | [Request _ (Some m) _ _ _] => m !! "maxResults"
      | _ => None
      end) H) as H1.
    pose proof (f_equal (fun l : list request =>
      match l with
      | [Request _ (Some m) _ _ _] => m !! "timeoutMs"
      | _ => None
      end) H) as H2.
    cbn beta iota in H1, H2.
    repeat (rewrite lookup_insert_ne in H1 by done).
    repeat (rewrite lookup_insert_ne in H2 by done).
    rewrite !lookup_insert_eq in H1. rewrite !lookup_insert_eq in H2.
    injection H1 as H1. injection H2 as H2.
    split; [now apply Hps | now apply Htm].
  - intros [H1 H2]. apply Hps in H1. apply Htm in H2. now rewrite H1, H2.
Qed.

(** *** The fixed part of the bodies *)

(** X9. Whatever the optional fields, the body of [datasets_insert] has
    [kind] and a [datasetReference] naming the instance's project and
    the caller's dataset id, and the body of [tables_insert] has [kind],
    a [tableReference] naming the instance's project and the caller's
    ids, and the caller's schema under [schema.fields]; neither has a
    key besides these, [friendlyName] and [description]. *)
Theorem insert_body_fixed_fields dataset_id table_id schema friendly_name description st :
  (exists body : gmap string value,
     sent (snd (datasets_insert dataset_id friendly_name description st)) =
       sent st ++
       [Request (_ENDPOINT +:+ "/projects/" +:+ _project_id (self st) +:+ "/datasets/")
          None (Some (VDict body)) None (Some (_credentials (self st)))] /\
     body !! "kind" = Some (VStr "bigquery#dataset") /\
     body !! "datasetReference" =
       Some (VDict {[ "projectId" := VStr (_project_id (self st));
                      "datasetId" := VStr dataset_id ]}) /\
     (forall key, key <> "kind" -> key <> "datasetReference" ->
        key <> "friendlyName" -> key <> "description" -> body !! key = None)) /\
  (exists body : gmap string value,
     sent (snd (tables_insert dataset_id table_id schema friendly_name description st)) =
       sent st ++
       [Request (_ENDPOINT +:+ "/projects/" +:+ _project_id (self st) +:+ "/datasets/"
                   +:+ dataset_id +:+ "/tables/")
          None (Some (VDict body)) None (Some (_credentials (self st)))] /\
     body !! "kind" = Some (VStr "bigquery#table") /\
     body !! "tableReference" =
       Some (VDict {[ "projectId" := VStr (_project_id (self st));
                      "datasetId" := VStr dataset_id;
                      "tableId" := VStr table_id ]}) /\
     body !! "schema" = Some (VDict {[ "fields" := schema ]}) /\
     (forall key, key <> "kind" -> key <> "tableReference" -> key <> "schema" ->
        key <> "friendlyName" -> key <> "description" -> body !! key = None)).
Proof.
  to_transport.
  rewrite !bind_Http_request_sent by (intros; apply self_link_or_None_state).
  split; eexists; (split; [reflexivity|]); cbn zeta.
  - split; [|split].
    + rewrite !optional_field_other by done. reflexivity.
    + rewrite !optional_field_other by done. reflexivity.
    + intros key H1 H2 H3 H4.
      rewrite !optional_field_other by congruence.
      rewrite lookup_insert_ne by congruence.
      apply lookup_singleton_ne. congruence.
  - split; [|split; [|split]].
    + rewrite !optional_field_other by done. reflexivity.
    + rewrite !optional_field_other by done. reflexivity.
    + rewrite !optional_field_other by done. reflexivity.
    + intros key H1 H2 H3 H4 H5.
      rewrite !optional_field_other by congruence.
      rewrite !lookup_insert_ne by congruence.
      apply lookup_singleton_ne. congruence.
Qed.

(** X10. Whatever the destination, the body of [jobs_insert_query] has
    the fixed [kind] and [priority], the caller's [dry_run], SQL text
    and [use_cache] (the cache flag is sent with a destination too), and
    under [configuration.query] no key besides [query], [useQueryCache],
    [destinationTable] and [writeDisposition]. A write disposition is
    sent exactly when both ids are supplied and [append] or [overwrite]
    is set: without a destination the two flags are dropped. *)
Theorem jobs_insert_query_fixed_fields sql dataset_id table_id
    (append overwrite dry_run use_cache : bool) st :
  exists body,
    sent (snd (jobs_insert_query sql dataset_id table_id append overwrite
                 dry_run use_cache st)) =
      sent st ++
      [Request (_ENDPOINT +:+ "/projects/" +:+ _project_id (self st) +:+ "/jobs")
         None (Some body) None (Some (_credentials (self st)))] /\
    lookup_path ["kind"] body = Some (VStr "bigquery#job") /\
    lookup_path ["configuration"; "dryRun"] body = Some (VBool dry_run) /\
    lookup_path ["configuration"; "priority"] body = Some (VStr "INTERACTIVE") /\
    lookup_path ["configuration"; "query"; "query"] body = Some (VStr sql) /\
    lookup_path ["configuration"; "query"; "useQueryCache"] body =
      Some (VBool use_cache) /\
    (is_Some (lookup_path ["configuration"; "query"; "writeDisposition"] body) <->
     supplied dataset_id /\ supplied table_id /\
     (append = true \/ overwrite = true)) /\
    (forall key, key <> "query" -> key <> "useQueryCache" ->
       key <> "destinationTable" -> key <> "writeDisposition" ->
       lookup_path ["configuration"; "query"; key] body = None).
Proof.
  rewrite jobs_insert_query_run, Http_request_sent.
  eexists. split; [reflexivity|].
  rewrite !lookup_path_query_config. cbn zeta.
  split; [reflexivity|]. split; [reflexivity|]. split; [reflexivity|].
  destruct (truthy (py_and (opt_str dataset_id) (opt_str table_id))) eqn:E.
  - apply both_supplied in E. destruct E as [Hd Ht].
    destruct append; [|destruct overwrite].
    + cbv beta iota zeta. split; [reflexivity|]. split; [reflexivity|]. split.
      * rewrite lookup_insert_eq. split; eauto.
      * intros key H1 H2 H3 H4. rewrite lookup_path_query_config.
        rewrite !lookup_insert_ne by congruence.
        apply lookup_singleton_ne. congruence.
    + cbv beta iota zeta. split; [reflexivity|]. split; [reflexivity|]. split.
      * rewrite lookup_insert_eq. split; eauto.
      * intros key H1 H2 H3 H4. rewrite lookup_path_query_config.
        rewrite !lookup_insert_ne by congruence.
        apply lookup_singleton_ne. congruence.
    + cbv beta iota zeta. split; [reflexivity|]. split; [reflexivity|]. split.
      * split; [intros [v Hv]; discriminate|].
        intros (_ & _ & [H|H]); discriminate.
      * intros key H1 H2 H3 H4. rewrite lookup_path_query_config.
        rewrite !lookup_insert_ne by congruence.
        apply lookup_singleton_ne. congruence.
  - assert (~ (supplied dataset_id /\ supplied table_id)) as Hn.
    { intros H. apply both_supplied in H. congruence. }
    cbv beta iota zeta. split; [reflexivity|]. split; [reflexivity|]. split.
    + split; [intros [v Hv]; discriminate|].
      intros (Hd & Ht & _). exfalso. apply Hn. auto.
    + intros key H1 H2 H3 H4. rewrite lookup_path_query_config.
        rewrite !lookup_insert_ne by congruence.
      apply lookup_singleton_ne. congruence.
Qed.

(** *** Independence of calls *)

(** X11. What a call sends depends only on its arguments and on the
    instance: on two states with the same instance, whatever was sent
    before and whatever the outside world is, a call adds the same
    requests. *)
Theorem requests_are_stateless c st st' :
  self st = self st' ->
  exists reqs,
    sent (snd (invoke c st)) = sent st ++ reqs /\
    sent (snd (invoke c st')) = sent st' ++ reqs.
Proof.
  intros Hself.
  destruct c; cbn [invoke];
    try (to_transport;
         rewrite ?bind_Http_request_sent by (intros; apply self_link_or_None_state);
         rewrite ?Http_request_sent, Hself;
         eexists; split; reflexivity).
  - exists []. rewrite !app_nil_r. split; reflexivity.
  - destruct name_parts as [|p [|d [|t [|x rest]]]];
      try (exists []; rewrite !app_nil_r; split; reflexivity).
    to_transport. rewrite !Http_request_sent, Hself.
    eexists; split; reflexivity.
Qed.

End Client.


(** ** The methods on a concrete client *)

(** A client of project "proj" with a unit credential handle, in front
    of a transport that answers every request with the same dictionary. *)
Local Abbreviation answering resp :=
  (fun (_ : @request unit) (w : unit) => (Ok (VDict resp), w)).
Local Abbreviation fresh := (State (__init__ tt "proj") tt []).

Example percent_format_jobs :
  percent_format _JOBS_PATH ["p"] = Ok "/projects/p/jobs".
Proof. reflexivity. Qed.

Example percent_format_too_few :
  percent_format _TABLES_PATH ["p"; "d"] =
  Raise (TypeError "not enough arguments for format string").
Proof. reflexivity. Qed.

Example percent_format_too_many :
  percent_format _TABLES_PATH ["p"; "d"; "t"; "x"] =
  Raise (TypeError "not all arguments converted during string formatting").
Proof. reflexivity. Qed.

Example datasets_delete_sent :
  sent (snd (datasets_delete (answering ∅) "ds1" true fresh)) =
  [Request "https://www.googleapis.com/bigquery/v2/projects/proj/datasets/ds1"
     None None (Some "DELETE") (Some tt)].
Proof. reflexivity. Qed.

Example tables_get_other_project :
  sent (snd (tables_get (answering ∅) ["other"; "ds1"; "t1"] fresh)) =
  [Request "https://www.googleapis.com/bigquery/v2/projects/other/datasets/ds1/tables/t1"
     None None None (Some tt)].
Proof. reflexivity. Qed.

Example tables_get_two_parts :
  tables_get (answering ∅) ["ds1"; "t1"] fresh =
  (Raise (TypeError "not enough arguments for format string"), fresh).
Proof. reflexivity. Qed.

Lemma insert_returns_self_link_witness :
  fst (datasets_insert (answering {[ "selfLink" := VStr "https://x/ds1" ]})
         "ds1" None None fresh) = Ok (VStr "https://x/ds1") /\
  fst (tables_insert (answering {[ "kind" := VStr "bigquery#table" ]})
         "ds1" "t1" (VList []) (Some "name") None fresh) = Ok VNone.
Proof.
  split.
  - refine (proj1 (insert_returns_self_link
                     (answering {[ "selfLink" := VStr "https://x/ds1" ]}))
              "ds1" None None fresh _ {[ "selfLink" := VStr "https://x/ds1" ]} tt _ _);
      reflexivity.
  - refine (proj2 (insert_returns_self_link
                     (answering {[ "kind" := VStr "bigquery#table" ]}))
              "ds1" "t1" (VList []) (Some "name") None fresh _
              {[ "kind" := VStr "bigquery#table" ]} tt _ _);
      reflexivity.
Defined.

Example jobs_insert_query_append_wins :
  sent (snd (jobs_insert_query (answering ∅) "SELECT 1" (Some "d1") (Some "t1")
               true true false true fresh)) =
  [Request "https://www.googleapis.com/bigquery/v2/projects/proj/jobs"
     None
     (Some (VDict {[
        "kind" := VStr "bigquery#job";
        "configuration" := VDict {[
          "query" := VDict {[
            "query" := VStr "SELECT 1";
            "useQueryCache" := VBool true;
            "destinationTable" := VDict {[
              "projectId" := VStr "proj";
              "datasetId" := VStr "d1";
              "tableId" := VStr "t1" ]};
            "writeDisposition" := VStr "WRITE_APPEND" ]};
          "dryRun" := VBool false;
          "priority" := VStr "INTERACTIVE" ]} ]}))
     None (Some tt)].
Proof. reflexivity. Qed.

Example jobs_insert_query_empty_table_id :
  sent (snd (jobs_insert_query (answering ∅) "SELECT 1" (Some "d1") (Some "")
               true true false true fresh)) =
  [Request "https://www.googleapis.com/bigquery/v2/projects/proj/jobs"
     None
     (Some (VDict {[
        "kind" := VStr "bigquery#job";
        "configuration" := VDict {[
          "query" := VDict {[
            "query" := VStr "SELECT 1";
            "useQueryCache" := VBool true ]};
          "dryRun" := VBool false;
          "priority" := VStr "INTERACTIVE" ]} ]}))
     None (Some tt)].
Proof. reflexivity. Qed.

Example jobs_query_sentinels :
  sent (snd (jobs_query (answering ∅) "SELECT 1" 0 None false true fresh)) =
  [Request "https://www.googleapis.com/bigquery/v2/projects/proj/queries"
     None
     (Some (VDict {[
        "kind" := VStr "bigquery#queryRequest";
        "query" := VStr "SELECT 1";
        "maxResults" := VInt 10000;
        "timeoutMs" := VInt 60000;
        "dryRun" := VBool false;
        "useQueryCache" := VBool true ]}))
     None (Some tt)].
Proof. reflexivity. Qed.

Example jobs_query_results_zero_timeout :
  sent (snd (jobs_query_results (answering ∅) "job1" 50 (Some 0) 7 fresh)) =
  [Request "https://www.googleapis.com/bigquery/v2/projects/proj/queries/job1"
     (Some {[ "maxResults" := VInt 50;
              "timeoutMs" := VInt 0;
              "startIndex" := VInt 7 ]})
     None None (Some tt)].
Proof. reflexivity. Qed.

Example datasets_list_defaults :
  sent (snd (datasets_list (answering ∅) 0 None fresh)) =
  [Request "https://www.googleapis.com/bigquery/v2/projects/proj/datasets/"
     (Some ∅) None None (Some tt)].
Proof. reflexivity. Qed.

Example tables_list_empty_token :
  sent (snd (tables_list (answering ∅) "ds1" 25 (Some "") fresh)) =
  [Request "https://www.googleapis.com/bigquery/v2/projects/proj/datasets/ds1/tables/"
     (Some {[ "maxResults" := VInt 25; "pageToken" := VStr "" ]})
     None None (Some tt)].
Proof. reflexivity. Qed.

Example datasets_insert_empty_description :
  sent (snd (datasets_insert (answering ∅) "ds1" (Some "My data") (Some "") fresh)) =
  [Request "https://www.googleapis.com/bigquery/v2/projects/proj/datasets/"
     None
     (Some (VDict {[
        "kind" := VStr "bigquery#dataset";
        "datasetReference" := VDict {[
          "projectId" := VStr "proj";
          "datasetId" := VStr "ds1" ]};
        "friendlyName" := VStr "My data" ]}))
     None (Some tt)].
Proof. reflexivity. Qed.

Example tables_insertAll_sent :
  sent (snd (tables_insertAll (answering ∅) "ds1" "t1" (VList []) fresh)) =
  [Request "https://www.googleapis.com/bigquery/v2/projects/proj/datasets/ds1/tables/t1/insertAll"
     None
     (Some (VDict {[
        "kind" := VStr "bigquery#tableDataInsertAllRequest";
        "rows" := VList [] ]}))
     None (Some tt)].
Proof. reflexivity. Qed.

Example datasets_insert_transport_failure :
  fst (datasets_insert
         (fun (_ : @request unit) (w : unit) =>
            (Raise (RequestException 404 "Not Found"), w))
         "ds1" None None fresh) =
  Raise (RequestException 404 "Not Found").
Proof. reflexivity. Qed.

Example datasets_insert_null_response :
  fst (datasets_insert
         (fun (_ : @request unit) (w : unit) => (Ok VNone, w))
         "ds1" None None fresh) =
  Raise (TypeError "argument is not iterable").
Proof. reflexivity. Qed.

Lemma jobs_insert_query_destination_witness :
  exists body,
    sent (snd (jobs_insert_query (answering ∅) "SELECT 1" (Some "d1") (Some "t1")
                 true true false true fresh)) =
      [Request "https://www.googleapis.com/bigquery/v2/projects/proj/jobs"
         None (Some body) None (Some tt)] /\
    lookup_path ["configuration"; "query"; "writeDisposition"] body =
      Some (VStr "WRITE_APPEND").
Proof.
  destruct (jobs_insert_query_destination (answering ∅) "SELECT 1"
              (Some "d1") (Some "t1") true true false true fresh)
    as (body & Hsent & _ & Hboth & _).
  exists body. split; [exact Hsent|].
  apply (Hboth "d1" "t1"); done.
Defined.

Lemma tables_get_ignores_project_id_witness :
  exists req rest,
    sent (snd (invoke (answering ∅) (Call_table_delete "ds1" "t1") fresh)) = [req] /\
    url req = _ENDPOINT +:+ "/projects/" +:+ "proj" +:+ "/" +:+ rest.
Proof.
  apply (proj2 (proj2 (proj2 (tables_get_ignores_project_id (answering ∅))))
           (Call_table_delete "ds1" "t1") fresh); done.
Defined.

(** *** Further properties on the concrete client *)

Lemma passthrough_returns_transport_result_witness :
  invoke (answering {[ "kind" := VStr "bigquery#dataset" ]})
    (Call_datasets_get "ds1") fresh =
  (Ok (VDict {[ "kind" := VStr "bigquery#dataset" ]}),
   State (__init__ tt "proj") tt
     [Request "https://www.googleapis.com/bigquery/v2/projects/proj/datasets/ds1"
        None None None (Some tt)]).
Proof.
  refine (passthrough_returns_transport_result
            (answering {[ "kind" := VStr "bigquery#dataset" ]})
            (Call_datasets_get "ds1") fresh
            (Request "https://www.googleapis.com/bigquery/v2/projects/proj/datasets/ds1"
               None None None (Some tt)) _ _ _);
    [discriminate | discriminate | reflexivity].
Defined.

Lemma transport_error_propagates_witness :
  invoke (fun (_ : @request unit) (w : unit) =>
            (Raise (RequestException 409 "Already Exists"), w))
    (Call_datasets_insert "ds1" None None) fresh =
  (Raise (RequestException 409 "Already Exists"),
   State (__init__ tt "proj") tt
     [Request "https://www.googleapis.com/bigquery/v2/projects/proj/datasets/"
        None
        (Some (VDict {[
           "kind" := VStr "bigquery#dataset";
           "datasetReference" := VDict {[
             "projectId" := VStr "proj";
             "datasetId" := VStr "ds1" ]} ]}))
        None (Some tt)]).
Proof.
  refine (transport_error_propagates
            (fun (_ : @request unit) (w : unit) =>
               (Raise (RequestException 409 "Already Exists"), w))
            (Call_datasets_insert "ds1" None None) fresh
            (Request "https://www.googleapis.com/bigquery/v2/projects/proj/datasets/"
               None
               (Some (VDict {[
                  "kind" := VStr "bigquery#dataset";
                  "datasetReference" := VDict {[
                    "projectId" := VStr "proj";
                    "datasetId" := VStr "ds1" ]} ]}))
               None (Some tt))
            (RequestException 409 "Already Exists") tt _ _);
    reflexivity.
Defined.

Lemma insert_non_mapping_response_witness :
  exists msg,
    fst (invoke (fun (_ : @request unit) (w : unit) => (Ok VNone, w))
           (Call_tables_insert "ds1" "t1" (VList []) None None) fresh) =
    Raise (TypeError msg).
Proof.
  refine (proj1 (proj2 (insert_non_mapping_response
            (fun (_ : @request unit) (w : unit) => (Ok VNone, w))
            (Call_tables_insert "ds1" "t1" (VList []) None None) fresh
            (Request "https://www.googleapis.com/bigquery/v2/projects/proj/datasets/ds1/tables/"
               None
               (Some (VDict {[
                  "kind" := VStr "bigquery#table";
                  "tableReference" := VDict {[
                    "projectId" := VStr "proj";
                    "datasetId" := VStr "ds1";
                    "tableId" := VStr "t1" ]};
                  "schema" := VDict {[ "fields" := VList [] ]} ]}))
               None (Some tt))
            VNone tt _ _ _ _)) _).
  - right. do 5 eexists. reflexivity.
  - reflexivity.
  - reflexivity.
  - discriminate.
  - left. reflexivity.
Defined.

Lemma requests_are_stateless_witness :
  exists reqs,
    sent (snd (invoke (answering ∅) (Call_table_delete "ds1" "t1") fresh)) =
      [] ++ reqs /\
    sent (snd (invoke (answering ∅) (Call_table_delete "ds1" "t1")
                 (State (__init__ tt "proj") tt
                    [Request "earlier" None None None None]))) =
      [Request "earlier" None None None None] ++ reqs.
Proof.
  apply (requests_are_stateless (answering ∅) (Call_table_delete "ds1" "t1") fresh
           (State (__init__ tt "proj") tt [Request "earlier" None None None None])).
  reflexivity.
Defined.

Example datasets_insert_list_response :
  fst (datasets_insert
         (fun (_ : @request unit) (w : unit) => (Ok (VList [VStr "selfLink"]), w))
         "ds1" None None fresh) =
  Raise (TypeError "list indices must be integers, not str").
Proof. reflexivity. Qed.

Example five_calls_four_requests :
  length (sent (snd (invoke_all (answering ∅)
    [Call_datasets_get "ds1"; Call_project_id; Call_tables_get ["ds1"; "t1"];
     Call_table_delete "ds1" "t1"; Call_datasets_delete "ds1" true;
     Call_datasets_list 0 None] fresh))) = 4%nat.
Proof. reflexivity. Qed.
